(** * The DCRL-ME example notebook (examples/dcrlme.ipynb)

  A shallow embedding of the notebook's glue code: the environment it
  builds, the per-step interaction closure [play_step_fn], the emitter
  configuration, the dependency bootstrap of the first cell and the
  training loop with its CSV log.  Everything the notebook only imports
  (the physics simulator, the policy network, the MAP-Elites driver, the
  wall clock) is a variable of the development. *)

From Stdlib Require Import ZArith List String Lia.
From Stdlib Require Import Floats.SpecFloat.
From stdpp Require Import base option list gmap strings.

Local Open Scope string_scope.
Local Open Scope list_scope.

Set Warnings "-register-all,-clear-no-such-hyp".

(** ** JAX arrays

  The notebook runs JAX with its default 32-bit floats.  An IEEE-754
  value is a [spec_float] of the Standard Library; arithmetic is taken at
  the binary32 format.  Only rank 0 and rank 1 arrays occur in the
  un-batched code of the notebook. *)

Module jnp.

Abbreviation f32 := spec_float (only parsing).

Definition prec : Z := 24.
Definition emax : Z := 128.

Definition nan : f32 := S754_nan.
Definition zero : f32 := S754_zero false.

Inductive Array :=
| Scalar (x : f32)
| Vector (xs : list f32).

Definition shape (a : Array) : list nat :=
  match a with
  | Scalar _ => []
  | Vector xs => [length xs]
  end.

Definition entries (a : Array) : list f32 :=
  match a with
  | Scalar x => [x]
  | Vector xs => xs
  end.

Definition map (f : f32 -> f32) (a : Array) : Array :=
  match a with
  | Scalar x => Scalar (f x)
  | Vector xs => Vector (List.map f xs)
  end.

(** [jnp.zeros(n)] *)
Definition zeros (n : nat) : Array := Vector (repeat zero n).

(** [a * c] and [a + c] for a Python scalar [c], broadcast over [a]. *)
Definition mul (a : Array) (c : f32) : Array :=
  map (fun x => SFmul prec emax x c) a.

Definition add (a : Array) (c : f32) : Array :=
  map (fun x => SFadd prec emax x c) a.

(** [jnp.maximum] and [jnp.minimum] on two scalars: a NaN operand gives
    NaN, otherwise the larger (smaller) operand. *)
Definition maximum (x y : f32) : f32 :=
  match SFcompare x y with
  | None => nan
  | Some Lt => y
  | Some _ => x
  end.

Definition minimum (x y : f32) : f32 :=
  match SFcompare x y with
  | None => nan
  | Some Gt => y
  | Some _ => x
  end.

(** [jnp.clip(a, a_min, a_max)]; a bound that is [None] is not applied. *)
Definition clip (a : Array) (a_min a_max : option f32) : Array :=
  let a := match a_min with Some lo => map (maximum lo) a | None => a end in
  match a_max with Some hi => map (minimum hi) a | None => a end.

Definition is_nan (x : f32) : bool :=
  match x with S754_nan => true | _ => false end.

End jnp.

Abbreviation Array := jnp.Array.

(** ** Environment states and transitions *)

(** The state of a Brax environment: the simulator's own state, the
  observation, the reward and done flag of the last step and the [info]
  dictionary. *)
Module EnvState.
Record t {Sim : Type} := mk {
  pipeline_state : Sim;
  obs : Array;
  reward : Array;
  done : Array;
  info : gmap string Array
}.
Arguments t : clear implicits.
Arguments mk {Sim}.

(** [state.replace(reward=r)] *)
Definition replace_reward {Sim} (s : t Sim) (r : Array) : t Sim :=
  mk (pipeline_state s) (obs s) r (done s) (info s).
End EnvState.

Abbreviation EnvState := EnvState.t.

(** The record [play_step_fn] fills in: the keyword arguments of the
  [DCRLTransition(...)] call, in source order. *)
Module DCRLTransition.
Record t := mk {
  obs : Array;
  next_obs : Array;
  rewards : Array;
  dones : Array;
  truncations : Array;
  actions : Array;
  state_desc : Array;
  next_state_desc : Array;
  desc : Array;
  desc_prime : Array
}.
End DCRLTransition.

Abbreviation DCRLTransition := DCRLTransition.t.

(** ** The parameter cell *)

(** The choices of the [env_name] drop-down. *)
Inductive EnvName :=
| ant_uni | hopper_uni | walker_uni | halfcheetah_uni | humanoid_uni
| ant_omni | humanoid_omni.

(** Python floats are binary64 values. *)
Abbreviation f64 := spec_float (only parsing).

(** The fields of the cell "QD Training Definitions Fields". *)
Module Fields.
Record t := mk {
  seed : Z;
  env_name : EnvName;
  episode_length : Z;
  min_bd : f64;
  max_bd : f64;
  num_iterations : Z;
  batch_size : Z;
  num_init_cvt_samples : Z;
  num_centroids : Z;
  policy_hidden_layer_sizes : list Z;
  ga_batch_size : Z;
  dcrl_batch_size : Z;
  ai_batch_size : Z;
  lengthscale : f64;
  iso_sigma : f64;
  line_sigma : f64;
  critic_hidden_layer_size : list Z;
  num_critic_training_steps : Z;
  num_pg_training_steps : Z;
  replay_buffer_size : Z;
  discount : f64;
  reward_scaling : f64;
  critic_learning_rate : f64;
  actor_learning_rate : f64;
  policy_learning_rate : f64;
  noise_clip : f64;
  policy_noise : f64;
  soft_tau_update : f64;
  policy_delay : Z
}.
End Fields.

Abbreviation Fields := Fields.t.

(** The values the notebook ships with.  A decimal literal is the binary64
  value nearest to it, written as mantissa and binary exponent. *)
Definition notebook_fields : Fields :=
{| Fields.seed := 42;
   Fields.env_name := ant_omni;
   Fields.episode_length := 250;
   Fields.min_bd := S754_finite true 8444249301319680 (-48);         (* -30.0 *)
   Fields.max_bd := S754_finite false 8444249301319680 (-48);        (* 30.0 *)
   Fields.num_iterations := 1000;
   Fields.batch_size := 256;
   Fields.num_init_cvt_samples := 50000;
   Fields.num_centroids := 1024;
   Fields.policy_hidden_layer_sizes := [128; 128]%Z;
   Fields.ga_batch_size := 128;
   Fields.dcrl_batch_size := 64;
   Fields.ai_batch_size := 64;
   Fields.lengthscale := S754_finite false 7205759403792794 (-56);   (* 0.1 *)
   Fields.iso_sigma := S754_finite false 5764607523034235 (-60);     (* 0.005 *)
   Fields.line_sigma := S754_finite false 7205759403792794 (-57);    (* 0.05 *)
   Fields.critic_hidden_layer_size := [256; 256]%Z;
   Fields.num_critic_training_steps := 3000;
   Fields.num_pg_training_steps := 150;
   Fields.replay_buffer_size := 1000000;
   Fields.discount := S754_finite false 8917127262193582 (-53);      (* 0.99 *)
   Fields.reward_scaling := S754_finite false 4503599627370496 (-52); (* 1.0 *)
   Fields.critic_learning_rate := S754_finite false 5534023222112865 (-64); (* 3e-4 *)
   Fields.actor_learning_rate := S754_finite false 5534023222112865 (-64);  (* 3e-4 *)
   Fields.policy_learning_rate := S754_finite false 5764607523034235 (-60); (* 5e-3 *)
   Fields.noise_clip := S754_finite false 4503599627370496 (-53);    (* 0.5 *)
   Fields.policy_noise := S754_finite false 7205759403792794 (-55);  (* 0.2 *)
   Fields.soft_tau_update := S754_finite false 5764607523034235 (-60); (* 0.005 *)
   Fields.policy_delay := 2 |}.

(** ** The emitter configuration *)

(** Modelled from the spec: the dataclass [DCRLMEConfig] is declared in
  qdax.core.emitters.dcrl_me_emitter, outside the notebook.  The spec calls
  it "a parameter bag" (section 2) that receives "plain scalar/tuple
  parameters" (section 6): a record with one field for each keyword of the
  notebook's call, holding the value it is given. *)
Module DCRLMEConfig.
Record t := mk {
  ga_batch_size : Z;
  dcrl_batch_size : Z;
  ai_batch_size : Z;
  lengthscale : f64;
  critic_hidden_layer_size : list Z;
  num_critic_training_steps : Z;
  num_pg_training_steps : Z;
  batch_size : Z;
  replay_buffer_size : Z;
  discount : f64;
  reward_scaling : f64;
  critic_learning_rate : f64;
  actor_learning_rate : f64;
  policy_learning_rate : f64;
  noise_clip : f64;
  policy_noise : f64;
  soft_tau_update : f64;
  policy_delay : Z
}.
End DCRLMEConfig.

Abbreviation DCRLMEConfig := DCRLMEConfig.t.

(** [dcrl_emitter_config = DCRLMEConfig(ga_batch_size=ga_batch_size, ...)] *)
Definition dcrl_emitter_config (f : Fields) : DCRLMEConfig :=
{| DCRLMEConfig.ga_batch_size := Fields.ga_batch_size f;
   DCRLMEConfig.dcrl_batch_size := Fields.dcrl_batch_size f;
   DCRLMEConfig.ai_batch_size := Fields.ai_batch_size f;
   DCRLMEConfig.lengthscale := Fields.lengthscale f;
   DCRLMEConfig.critic_hidden_layer_size := Fields.critic_hidden_layer_size f;
   DCRLMEConfig.num_critic_training_steps := Fields.num_critic_training_steps f;
   DCRLMEConfig.num_pg_training_steps := Fields.num_pg_training_steps f;
   DCRLMEConfig.batch_size := Fields.batch_size f;
   DCRLMEConfig.replay_buffer_size := Fields.replay_buffer_size f;
   DCRLMEConfig.discount := Fields.discount f;
   DCRLMEConfig.reward_scaling := Fields.reward_scaling f;
   DCRLMEConfig.critic_learning_rate := Fields.critic_learning_rate f;
   DCRLMEConfig.actor_learning_rate := Fields.actor_learning_rate f;
   DCRLMEConfig.policy_learning_rate := Fields.policy_learning_rate f;
   DCRLMEConfig.noise_clip := Fields.noise_clip f;
   DCRLMEConfig.policy_noise := Fields.policy_noise f;
   DCRLMEConfig.soft_tau_update := Fields.soft_tau_update f;
   DCRLMEConfig.policy_delay := Fields.policy_delay f |}.

(** ** Environments and reward wrappers *)

(** An environment is what [environments.create] returns, possibly under
  reward wrappers.  [ClipRewardWrapper] takes [clip_min] and [clip_max],
  each [None] unless given. *)
Inductive Env :=
| Create (env_name : EnvName) (episode_length : Z)
| OffsetRewardWrapper (env : Env) (offset : jnp.f32)
| ClipRewardWrapper (env : Env) (clip_min clip_max : option jnp.f32).

Inductive Wrapper := Offset | Clip.

(** The wrappers around the factory's environment, outermost first. *)
Fixpoint wrappers (env : Env) : list Wrapper :=
  match env with
  | Create _ _ => []
  | OffsetRewardWrapper env _ => Offset :: wrappers env
  | ClipRewardWrapper env _ _ => Clip :: wrappers env
  end.

(** The environment under all wrappers. *)
Fixpoint unwrapped (env : Env) : Env :=
  match env with
  | Create _ _ => env
  | OffsetRewardWrapper env _ => unwrapped env
  | ClipRewardWrapper env _ _ => unwrapped env
  end.

(** The policy network: a multi-layer perceptron is given by its layer
  sizes (the notebook fixes the initialiser and the final activation). *)
Record MLP := { layer_sizes : list Z }.

(** ** The notebook's statements

  The code cells, statement by statement, as far as control flow and calls
  go: a simple statement keeps the names it calls, in source order; a
  compound statement keeps its blocks. *)
Module Source.

Inductive stmt :=
| Import (module : string)
| Escape (command : string)
| Run (calls : list string)
| Return (calls : list string)
| Try (body handler : list stmt)
| If (calls : list string) (body orelse : list stmt)
| For (calls : list string) (body : list stmt)
| Def (name : string) (decorators : list string) (body : list stmt)
| Class (name : string) (body : list stmt).

Definition cell_install : list stmt :=
  [ Import "IPython.display";
    Try [ Import "qdax" ]
        [ Run ["print"];
          Escape "pip install qdax[cuda12]";
          Import "qdax" ];
    Run ["clear_output"] ].

Definition cell_imports : list stmt :=
  [ Escape "pip install ipympl |tail -n 1";
    Import "os";
    Import "IPython.display";
    Import "functools";
    Import "time";
    Import "typing";
    Import "jax";
    Import "jax.numpy";
    Import "qdax";
    Import "qdax.core.containers.mapelites_repertoire";
    Import "qdax.core.emitters.dcrl_me_emitter";
    Import "qdax.core.emitters.mutation_operators";
    Import "qdax.core.map_elites";
    Import "qdax.core.neuroevolution.buffers.buffer";
    Import "qdax.core.neuroevolution.networks.networks";
    Import "qdax.custom_types";
    Import "qdax.environments";
    Import "qdax.environments.wrappers";
    Import "qdax.tasks.brax_envs";
    Import "qdax.utils.plotting";
    Import "qdax.utils.metrics";
    If [] [ Import "jax.tools"; Run ["colab_tpu.setup_tpu"] ] [];
    Run ["clear_output"] ].

(** Twenty-nine assignments of literals. *)
Definition cell_fields : list stmt := repeat (Run []) 29.

Definition cell_environment : list stmt :=
  [ Run ["jax.random.PRNGKey"];
    Run ["environments.create"];
    Run ["OffsetRewardWrapper"];
    Run ["ClipRewardWrapper"];
    Run ["jax.jit"];
    Run [];
    Run ["MLP"; "jax.nn.initializers.lecun_uniform"];
    Run ["MLPDC"; "jax.nn.initializers.lecun_uniform"];
    Run ["jax.random.split"];
    Run ["jax.random.split"];
    Run ["jnp.zeros"];
    Run ["jax.vmap"] ].

Definition cell_play_step : list stmt :=
  [ Def "play_step_fn" []
      [ Run ["policy_network.apply"];
        Run [];
        Run ["env.step"];
        Run ["DCRLTransition"; "jnp.zeros"; "jnp.zeros"];
        Return [] ] ].

Definition cell_scoring : list stmt :=
  [ Run []; Run ["functools.partial"]; Run []; Run ["functools.partial"] ].

Definition cell_config : list stmt := [ Run ["DCRLMEConfig"] ].

Definition cell_emitter : list stmt :=
  [ Run ["functools.partial"]; Run ["DCRLMEEmitter"] ].

Definition cell_map_elites : list stmt :=
  [ Run ["MAPElites"]; Run ["compute_cvt_centroids"]; Run ["map_elites.init"] ].

Definition cell_update_scan : list stmt :=
  [ Def "update_scan_fn" ["jax.jit"]
      [ Run ["map_elites.update"]; Return [] ] ].

Definition cell_training : list stmt :=
  [ Run [];
    Run ["int"];
    Run ["CSVLogger"];
    Run [];
    Run [];
    For ["range"]
      [ Run ["time.time"];
        Run ["jax.lax.scan"];
        Run ["time.time"];
        Run [];
        For ["metrics.items"]
          [ Run [];
            If ["all_metrics.keys"] [ Run ["jnp.concatenate"] ] [ Run [] ] ];
        Run ["csv_logger.log"] ] ].

Definition cell_visualization : list stmt :=
  [ Run ["jnp.arange"];
    Escape "matplotlib inline";
    Run ["plot_map_elites_results"] ].

Definition notebook : list stmt :=
  cell_install ++ cell_imports ++ cell_fields ++ cell_environment
  ++ cell_play_step ++ cell_scoring ++ cell_config ++ cell_emitter
  ++ cell_map_elites ++ cell_update_scan ++ cell_training
  ++ cell_visualization.

(** The handler blocks of the [try] statements of a statement, nested ones
  included. *)
Fixpoint handlers (s : stmt) : list (list stmt) :=
  match s with
  | Try body handler =>
      handler :: flat_map handlers body ++ flat_map handlers handler
  | If _ body orelse => flat_map handlers body ++ flat_map handlers orelse
  | For _ body | Def _ _ body | Class _ body => flat_map handlers body
  | Import _ | Escape _ | Run _ | Return _ => []
  end.

(** The shell escapes of a statement that stand outside every handler. *)
Fixpoint unguarded_escapes (s : stmt) : list string :=
  match s with
  | Escape command => [command]
  | Try body _ => flat_map unguarded_escapes body
  | If _ body orelse =>
      flat_map unguarded_escapes body ++ flat_map unguarded_escapes orelse
  | For _ body | Def _ _ body | Class _ body => flat_map unguarded_escapes body
  | Import _ | Run _ | Return _ => []
  end.

(** The names of the classes a statement defines. *)
Fixpoint class_definitions (s : stmt) : list string :=
  match s with
  | Class name body => name :: flat_map class_definitions body
  | Try body handler =>
      flat_map class_definitions body ++ flat_map class_definitions handler
  | If _ body orelse =>
      flat_map class_definitions body ++ flat_map class_definitions orelse
  | For _ body | Def _ _ body => flat_map class_definitions body
  | Import _ | Escape _ | Run _ | Return _ => []
  end.

(** Every name a statement calls. *)
Fixpoint calls_of (s : stmt) : list string :=
  match s with
  | Run calls | Return calls => calls
  | Try body handler => flat_map calls_of body ++ flat_map calls_of handler
  | If calls body orelse =>
      calls ++ flat_map calls_of body ++ flat_map calls_of orelse
  | For calls body => calls ++ flat_map calls_of body
  | Def _ _ body | Class _ body => flat_map calls_of body
  | Import _ | Escape _ => []
  end.

(** A called name is a class when it is written in CapWords, as every
  class the notebook imports is, and no function it calls. *)
Definition is_class_name (name : string) : bool :=
  match name with
  | String c _ => (65 <=? Ascii.nat_of_ascii c)%nat && (Ascii.nat_of_ascii c <=? 90)%nat
  | EmptyString => false
  end.

Definition instantiations (body : list stmt) : list string :=
  filter (fun name => is_class_name name = true) (flat_map calls_of body).

(** The classes instantiated inside the functions a statement defines. *)
Fixpoint instantiated_in_defs (s : stmt) : list string :=
  match s with
  | Def _ _ body => instantiations body
  | Try body handler =>
      flat_map instantiated_in_defs body ++ flat_map instantiated_in_defs handler
  | If _ body orelse =>
      flat_map instantiated_in_defs body ++ flat_map instantiated_in_defs orelse
  | For _ body | Class _ body => flat_map instantiated_in_defs body
  | Import _ | Escape _ | Run _ | Return _ => []
  end.

End Source.

(** ** The first cell: the dependency bootstrap

  A cell runs in a world (what can be imported), leaves a trace of what it
  did and either completes or raises.  Whether an import succeeds and what
  a shell escape does to the world are not the notebook's to decide. *)
Module Bootstrap.

Inductive event :=
| Imported (module : string)
| ImportFailed (module : string)
| Printed (text : string)
| Ran (command : string)
| OutputCleared.

Section Cell.

Variable World : Type.
Variable importable : World -> string -> bool.
Variable run : string -> World -> World.

(** A computation: from a world and the trace so far to the new world, the
  extended trace and a value, or [None] when an exception is raised. *)
Definition Cell (A : Type) : Type :=
  World * list event -> World * list event * option A.

Definition ret {A} (a : A) : Cell A :=
  fun '(w, trace) => (w, trace, Some a).

Definition bind {A B} (m : Cell A) (k : A -> Cell B) : Cell B :=
  fun s =>
    match m s with
    | (w, trace, Some a) => k a (w, trace)
    | (w, trace, None) => (w, trace, None)
    end.

Definition seq (m k : Cell unit) : Cell unit := bind m (fun _ => k).

(** [import module] raises when the module cannot be imported. *)
Definition import (module : string) : Cell unit :=
  fun '(w, trace) =>
    if importable w module
    then (w, trace ++ [Imported module], Some tt)
    else (w, trace ++ [ImportFailed module], None).

Definition print (text : string) : Cell unit :=
  fun '(w, trace) => (w, trace ++ [Printed text], Some tt).

(** [!command]: the shell escape returns whatever the command does. *)
Definition escape (command : string) : Cell unit :=
  fun '(w, trace) => (run command w, trace ++ [Ran command], Some tt).

Definition clear_output : Cell unit :=
  fun '(w, trace) => (w, trace ++ [OutputCleared], Some tt).

(** [try: body except: handler], with a bare [except]. *)
Definition try_except (body handler : Cell unit) : Cell unit :=
  fun s =>
    match body s with
    | (w, trace, None) => handler (w, trace)
    | done => done
    end.

Definition pip_install_qdax : string := "pip install qdax[cuda12]".

Definition bootstrap : Cell unit :=
  try_except
    (import "qdax")
    (seq (print "QDax not found. Installing...")
    (seq (escape pip_install_qdax)
         (import "qdax"))).

Definition cell_install : Cell unit :=
  seq (import "IPython.display") (seq bootstrap clear_output).

Definition trace_of {A} (r : World * list event * option A) : list event :=
  snd (fst r).

Definition world_of {A} (r : World * list event * option A) : World :=
  fst (fst r).

Definition completed {A} (r : World * list event * option A) : bool :=
  match snd r with Some _ => true | None => false end.

End Cell.

Arguments trace_of {World A}.
Arguments world_of {World A}.
Arguments completed {World A}.

End Bootstrap.

(** ** Scans, metrics and the CSV log *)

(** [jax.jit] compiles a pure function; it computes what the function
  computes. *)
Definition jax_jit {A : Type} (f : A) : A := f.

(** [jax.lax.scan(f, init, (), length=n)]: [n] calls of [f], each on the
  carry the previous one returned, with the outputs collected in order. *)
Fixpoint jax_lax_scan {C Y : Type} (f : C -> unit -> C * Y) (init : C)
    (length : nat) : C * list Y :=
  match length with
  | O => (init, [])
  | S n =>
      let '(carry, y) := f init tt in
      let '(final, ys) := jax_lax_scan f carry n in
      (final, y :: ys)
  end.

(** The outputs of a scan are stacked leaf by leaf: a list of dictionaries
  of scalars becomes a dictionary of rank 1 arrays under the keys of the
  first output (JAX demands the same keys of every step). *)
Definition stack (ys : list (gmap string jnp.f32)) : gmap string (list jnp.f32) :=
  match ys with
  | [] => ∅
  | y :: _ => map_imap (fun key _ => Some (omap (fun y => y !! key) ys)) y
  end.

(** [value[-1]]: the last entry; indexing an empty array raises. *)
Definition last_entry (value : list jnp.f32) : option jnp.f32 := last value.

(** What a logged dictionary holds: Python integers, Python floats and
  JAX scalars. *)
Inductive PyValue :=
| PyInt (z : Z)
| PyFloat (x : f64)
| JaxScalar (x : jnp.f32).

(** Modelled from the spec: [CSVLogger] is declared in qdax.utils.metrics,
  outside the notebook.  Section 6 of the spec describes what it persists:
  "a CSV file written incrementally with columns {loop, iteration,
  qd_score, max_fitness, coverage, time}, one row per logged interval", and
  section 8: "the CSV logger emits one row per logging interval with the
  declared header".  Constructing the logger starts the file with the
  header it is given and no row; each call of [log] adds one row, the
  logged dictionary. *)
Module CSVLogger.

Record t := mk { filename : string; header : list string }.

Record File := { header_row : list string; rows : list (gmap string PyValue) }.

Definition new (filename : string) (header : list string) : t * File :=
  (mk filename header, {| header_row := header; rows := [] |}).

Definition log (logger : t) (metrics : gmap string PyValue) (file : File) : File :=
  {| header_row := header_row file; rows := rows file ++ [metrics] |}.

End CSVLogger.

(** One pass of the loop over [metrics.items()]: the last value goes to
  the logged dictionary, all values are appended to [all_metrics]. *)
Definition record_metric (key : string) (value : list jnp.f32)
    (acc : option (gmap string PyValue * gmap string (list jnp.f32)))
    : option (gmap string PyValue * gmap string (list jnp.f32)) :=
  '(logged_metrics, all_metrics) ← acc;
  final ← last_entry value;
  Some (<[key := JaxScalar final]> logged_metrics,
        match all_metrics !! key with
        | Some values => <[key := values ++ value]> all_metrics
        | None => <[key := value]> all_metrics
        end).

Definition log_period : Z := 10.

(** [int(num_iterations / log_period)]: the quotient truncated towards
  zero (the float division is exact enough for that below 2^53). *)
Definition num_loops (f : Fields) : Z :=
  Z.quot (Fields.num_iterations f) log_period.

(** [range(n)] *)
Definition range (n : Z) : list Z := seqZ 0 n.

(** A [for] loop whose body may raise. *)
Fixpoint for_each {State : Type} (items : list Z)
    (body : Z -> State -> option State) (s : State) : option State :=
  match items with
  | [] => Some s
  | i :: items => s ← body i s; for_each items body s
  end.

(** ** A small concrete setting

  A three-dimensional observation, two actions, two descriptor entries, a
  simulator that always answers with the reward -1, an offset of 3 and a
  driver that counts its updates.  The general statements below are
  exercised on it. *)
Module Demo.

Definition observation_size (n : EnvName) : nat := 3.
Definition action_size (n : EnvName) : nat := 2.
Definition behavior_descriptor_length (n : EnvName) : nat := 2.

(** -1.0 and 3.0 in binary32 *)
Definition minus_one : jnp.f32 := S754_finite true 8388608 (-23).
Definition three : jnp.f32 := S754_finite false 12582912 (-22).

Definition state (reward : jnp.f32) : EnvState unit :=
  EnvState.mk tt
    (jnp.Vector (repeat jnp.zero 3))
    (jnp.Scalar reward)
    (jnp.Scalar jnp.zero)
    (<["truncation" := jnp.Scalar jnp.zero]>
     (<["state_descriptor" := jnp.Vector (repeat jnp.zero 2)]> ∅)).

Definition step (reward : jnp.f32) (n : EnvName) (episode_length : Z)
    (s : EnvState unit) (action : Array) : EnvState unit :=
  state reward.

Definition reward_offset (n : EnvName) : jnp.f32 := three.

Definition apply (network : MLP) (params : unit) (x : Array) : Array :=
  match last (layer_sizes network) with
  | Some n => jnp.Vector (repeat jnp.zero (Z.to_nat n))
  | None => jnp.Scalar jnp.zero
  end.

(** What one step from [state jnp.zero] is expected to give: the reward
  -1 + 3 = 2, and the transition around it. *)
Definition two : jnp.f32 := S754_finite false 8388608 (-22).

Definition next_state : EnvState unit := state two.

Definition transition : DCRLTransition :=
  DCRLTransition.mk
    (jnp.Vector (repeat jnp.zero 3))
    (jnp.Vector (repeat jnp.zero 3))
    (jnp.Scalar two)
    (jnp.Scalar jnp.zero)
    (jnp.Scalar jnp.zero)
    (jnp.Vector (repeat jnp.zero 2))
    (jnp.Vector (repeat jnp.zero 2))
    (jnp.Vector (repeat jnp.zero 2))
    (jnp.Vector [jnp.nan; jnp.nan])
    (jnp.Vector [jnp.nan; jnp.nan]).

(** A world is whether qdax can be imported; installing makes it so. *)
Definition importable (w : bool) (module : string) : bool :=
  if String.eqb module "qdax" then w else true.

Definition run (command : string) (w : bool) : bool :=
  if String.eqb command Bootstrap.pip_install_qdax then true else w.

Definition metrics : gmap string jnp.f32 :=
  <["coverage" := jnp.zero]>
  (<["max_fitness" := jnp.zero]>
  (<["qd_score" := jnp.zero]> ∅)).

Definition update (repertoire : nat) (emitter_state random_key : unit)
    : nat * unit * gmap string jnp.f32 * unit :=
  (S repertoire, emitter_state, metrics, random_key).

Definition time_time (n : nat) : f64 := S754_zero false.

End Demo.

(** An update function instrumented with a counter of its calls, kept
  beside the repertoire. *)
Definition counting {R E K M : Type} (update : R -> E -> K -> R * E * M * K)
    : R * nat -> E -> K -> (R * nat) * E * M * K :=
  fun '(repertoire, calls) emitter_state random_key =>
    let '(repertoire, emitter_state, metrics, random_key) :=
      update repertoire emitter_state random_key in
    ((repertoire, S calls), emitter_state, metrics, random_key).

(** Reading the fields of a transition that is given by its constructor. *)
Ltac transition_fields :=
  cbn [DCRLTransition.obs DCRLTransition.next_obs DCRLTransition.rewards
       DCRLTransition.dones DCRLTransition.truncations DCRLTransition.actions
       DCRLTransition.state_desc DCRLTransition.next_state_desc
       DCRLTransition.desc DCRLTransition.desc_prime] in *.

(** ** The rest of the notebook's cells *)

(** One column of the outputs of a scan: the values under [key], in
  order. *)
Definition column (key : string) (ys : list (gmap string jnp.f32)) : list jnp.f32 :=
  omap (fun y => y !! key) ys.

(** Integer arrays.  [jnp.arange] counts in 32-bit integers: a Python
  integer that does not fit cannot be multiplied in (an overflow error),
  and a product that does not fit wraps around. *)
Definition int32 (z : Z) : bool := ((- 2 ^ 31 <=? z) && (z <? 2 ^ 31))%Z.

Definition wrap32 (z : Z) : Z := ((z + 2 ^ 31) mod 2 ^ 32 - 2 ^ 31)%Z.

(** [jnp.arange(n)] *)
Definition jnp_arange (n : Z) : list Z := seqZ 0 n.

(** [xs * c] for a Python integer [c] *)
Definition jnp_scale (xs : list Z) (c : Z) : option (list Z) :=
  if int32 c then Some (List.map (fun x => wrap32 (x * c)) xs) else None.

(** The cell "Visualization":
  [env_steps = jnp.arange(740) * episode_length * batch_size] *)
Definition env_steps (f : Fields) : option (list Z) :=
  xs ← jnp_scale (jnp_arange 740) (Fields.episode_length f);
  jnp_scale xs (Fields.batch_size f).

(** The fields with another number of iterations. *)
Definition with_num_iterations (n : Z) (f : Fields) : Fields :=
  Fields.mk (Fields.seed f) (Fields.env_name f) (Fields.episode_length f)
    (Fields.min_bd f) (Fields.max_bd f) n (Fields.batch_size f)
    (Fields.num_init_cvt_samples f) (Fields.num_centroids f)
    (Fields.policy_hidden_layer_sizes f) (Fields.ga_batch_size f)
    (Fields.dcrl_batch_size f) (Fields.ai_batch_size f) (Fields.lengthscale f)
    (Fields.iso_sigma f) (Fields.line_sigma f)
    (Fields.critic_hidden_layer_size f) (Fields.num_critic_training_steps f)
    (Fields.num_pg_training_steps f) (Fields.replay_buffer_size f)
    (Fields.discount f) (Fields.reward_scaling f)
    (Fields.critic_learning_rate f) (Fields.actor_learning_rate f)
    (Fields.policy_learning_rate f) (Fields.noise_clip f)
    (Fields.policy_noise f) (Fields.soft_tau_update f) (Fields.policy_delay f).

(** Events of the first cell, by kind. *)
Definition is_ran (e : Bootstrap.event) : bool :=
  match e with Bootstrap.Ran _ => true | _ => false end.

Definition is_import_of (module : string) (e : Bootstrap.event) : bool :=
  match e with
  | Bootstrap.Imported m | Bootstrap.ImportFailed m => String.eqb m module
  | _ => false
  end.

(** ** The notebook over what it imports *)

Section Notebook.

(** The simulator's state, policy parameters, random keys, the archive and
  the emitter's state are opaque to the notebook. *)
Variables Sim Params RNGKey Repertoire EmitterState : Type.

(** What [environments.create] builds: the dimensions the environment
  declares and its step function. *)
Variable brax_observation_size : EnvName -> nat.
Variable brax_action_size : EnvName -> nat.
Variable brax_behavior_descriptor_length : EnvName -> nat.
Variable brax_step : EnvName -> Z -> EnvState Sim -> Array -> EnvState Sim.

(** The table [environments.reward_offset], as the binary32 value added
  to the reward. *)
Variable reward_offset : EnvName -> jnp.f32.

(** [network.apply(params, obs)] *)
Variable apply : MLP -> Params -> Array -> Array.

(** [map_elites.update(repertoire, emitter_state, random_key)] returns the
  new repertoire, the new emitter state, the metrics and a new key. *)
Variable map_elites_update :
  Repertoire -> EmitterState -> RNGKey ->
  Repertoire * EmitterState * gmap string jnp.f32 * RNGKey.

(** [time.time()], by the number of readings taken before. *)
Variable time_time : nat -> f64.

(** Wrappers pass the declared dimensions through. *)
Fixpoint observation_size (env : Env) : nat :=
  match env with
  | Create n _ => brax_observation_size n
  | OffsetRewardWrapper env _ | ClipRewardWrapper env _ _ => observation_size env
  end.

Fixpoint action_size (env : Env) : nat :=
  match env with
  | Create n _ => brax_action_size n
  | OffsetRewardWrapper env _ | ClipRewardWrapper env _ _ => action_size env
  end.

Fixpoint behavior_descriptor_length (env : Env) : nat :=
  match env with
  | Create n _ => brax_behavior_descriptor_length n
  | OffsetRewardWrapper env _ | ClipRewardWrapper env _ _ =>
      behavior_descriptor_length env
  end.

(** Modelled from the spec: the reward wrappers are declared in
  qdax.environments.wrappers, outside the notebook.  The spec names them
  "a reward-shaping wrapper" (section 1) and "reward wrappers" (section 2),
  and the notebook says what each is for: "apply reward offset" and "apply
  reward clip".  A wrapped environment steps the environment it wraps and
  replaces the reward of the state it gets: by the reward plus the offset,
  or by the reward clipped to the given bounds. *)
Fixpoint step (env : Env) (state : EnvState Sim) (action : Array) : EnvState Sim :=
  match env with
  | Create n episode_length => brax_step n episode_length state action
  | OffsetRewardWrapper env offset =>
      let state := step env state action in
      EnvState.replace_reward state (jnp.add (EnvState.reward state) offset)
  | ClipRewardWrapper env clip_min clip_max =>
      let state := step env state action in
      EnvState.replace_reward state
        (jnp.clip (EnvState.reward state) clip_min clip_max)
  end.

(** The cell "Init environment": the factory's environment, then the
  offset wrapper, then the clip wrapper with [clip_min=0.]. *)
Definition env (f : Fields) : Env :=
  let env := Create (Fields.env_name f) (Fields.episode_length f) in
  let env := OffsetRewardWrapper env (reward_offset (Fields.env_name f)) in
  let env := ClipRewardWrapper env (Some jnp.zero) None in
  env.

(** [policy_layer_sizes = policy_hidden_layer_sizes + (env.action_size,)] *)
Definition policy_layer_sizes (f : Fields) : list Z :=
  Fields.policy_hidden_layer_sizes f ++ [Z.of_nat (action_size (env f))].

Definition policy_network (f : Fields) : MLP :=
  {| layer_sizes := policy_layer_sizes f |}.

(** The cell "Define the way the policy interacts with the env".  A
  missing key of an [info] dictionary raises. *)
Definition play_step_fn (f : Fields) (env_state : EnvState Sim)
    (policy_params : Params) (random_key : RNGKey)
    : option (EnvState Sim * Params * RNGKey * DCRLTransition) :=
  let actions := apply (policy_network f) policy_params (EnvState.obs env_state) in
  state_desc ← EnvState.info env_state !! "state_descriptor";
  let next_state := step (env f) env_state actions in
  truncation ← EnvState.info next_state !! "truncation";
  next_state_desc ← EnvState.info next_state !! "state_descriptor";
  let transition :=
    {| DCRLTransition.obs := EnvState.obs env_state;
       DCRLTransition.next_obs := EnvState.obs next_state;
       DCRLTransition.rewards := EnvState.reward next_state;
       DCRLTransition.dones := EnvState.done next_state;
       DCRLTransition.truncations := truncation;
       DCRLTransition.actions := actions;
       DCRLTransition.state_desc := state_desc;
       DCRLTransition.next_state_desc := next_state_desc;
       DCRLTransition.desc :=
         jnp.mul (jnp.zeros (behavior_descriptor_length (env f))) jnp.nan;
       DCRLTransition.desc_prime :=
         jnp.mul (jnp.zeros (behavior_descriptor_length (env f))) jnp.nan |} in
  Some (next_state, policy_params, random_key, transition).

(** The carry of the scan. *)
Definition Carry : Type := Repertoire * EmitterState * RNGKey.

Definition update_scan_fn : Carry -> unit -> Carry * gmap string jnp.f32 :=
  jax_jit (fun carry unused =>
    let '(repertoire, emitter_state, random_key) := carry in
    let '(repertoire, emitter_state, metrics, random_key) :=
      map_elites_update repertoire emitter_state random_key in
    ((repertoire, emitter_state, random_key), metrics)).

(** The variables the training cell reads and writes, the CSV file and
  the number of clock readings taken so far. *)
Record Training := {
  repertoire : Repertoire;
  emitter_state : EmitterState;
  random_key : RNGKey;
  all_metrics : gmap string (list jnp.f32);
  csv_file : CSVLogger.File;
  clock : nat
}.

Definition carry_of (s : Training) : Carry :=
  (repertoire s, emitter_state s, random_key s).

Definition csv_header : list string :=
  ["loop"; "iteration"; "qd_score"; "max_fitness"; "coverage"; "time"].

Definition csv_logger : CSVLogger.t * CSVLogger.File :=
  CSVLogger.new "dcrlme-logs.csv" csv_header.

(** The body of the main loop for the index [i]. *)
Definition interval (i : Z) (s : Training) : option Training :=
  let start_time := time_time (clock s) in
  let '((repertoire, emitter_state, random_key), ys) :=
    jax_lax_scan update_scan_fn (carry_of s) (Z.to_nat log_period) in
  let metrics := stack ys in
  let timelapse := SFsub 53 1024 (time_time (S (clock s))) start_time in
  let logged_metrics : gmap string PyValue :=
    <["iteration" := PyInt (1 + i * log_period)]>
    (<["loop" := PyInt (1 + i)]>
    (<["time" := PyFloat timelapse]> ∅)) in
  '(logged_metrics, all_metrics) ←
    map_fold record_metric (Some (logged_metrics, all_metrics s)) metrics;
  Some {| repertoire := repertoire;
          emitter_state := emitter_state;
          random_key := random_key;
          all_metrics := all_metrics;
          csv_file := CSVLogger.log (fst csv_logger) logged_metrics (csv_file s);
          clock := S (S (clock s)) |}.

(** The training cell, from the repertoire, emitter state and key the
  cells before it left: it creates the logger, empties [all_metrics] and
  runs the main loop. *)
Definition training (f : Fields) (repertoire : Repertoire)
    (emitter_state : EmitterState) (random_key : RNGKey) (clock : nat)
    : option Training :=
  for_each (range (num_loops f)) interval
    {| repertoire := repertoire;
       emitter_state := emitter_state;
       random_key := random_key;
       all_metrics := ∅;
       csv_file := snd csv_logger;
       clock := clock |}.

(** One update step on the carry. *)
Definition update_step (carry : Carry) : Carry := fst (update_scan_fn carry tt).

(** Modelled from the spec: what the simulator and the network promise is
  decided outside the notebook.  Section 8 of the spec speaks of "the
  environment's declared observation/action/descriptor dimensions": a state
  of the environment [n] carries an observation of the declared size, a
  state descriptor of the declared descriptor length and a truncation
  flag. *)
Definition well_shaped (n : EnvName) (s : EnvState Sim) : Prop :=
  jnp.shape (EnvState.obs s) = [brax_observation_size n]
  /\ (exists d, EnvState.info s !! "state_descriptor" = Some d
        /\ jnp.shape d = [brax_behavior_descriptor_length n])
  /\ is_Some (EnvState.info s !! "truncation").

(** Stepping a well-shaped state with an action of the declared size gives
  a well-shaped state. *)
Definition simulator_keeps_shapes : Prop :=
  forall n episode_length s action,
    well_shaped n s ->
    jnp.shape action = [brax_action_size n] ->
    well_shaped n (brax_step n episode_length s action).

(** A perceptron maps a vector to a vector of the size of its last layer. *)
Definition network_output_shape : Prop :=
  forall network params x m n,
    jnp.shape x = [m] ->
    last (layer_sizes network) = Some n ->
    jnp.shape (apply network params x) = [Z.to_nat n].

(** Modelled from the spec: the metrics function [default_qd_metrics] is
  outside the notebook.  Of the columns section 6 of the spec lists, the
  loop supplies loop, iteration and time itself; the other three are the
  keys of the metrics every update returns. *)
Definition qd_metrics : gset string := {[ "qd_score"; "max_fitness"; "coverage" ]}.

Definition update_returns_qd_metrics : Prop :=
  forall repertoire emitter_state random_key,
    dom (snd (fst (map_elites_update repertoire emitter_state random_key)))
    = qd_metrics.

(** Non-negative, for a float: not below zero, and at least zero unless it
  is NaN (which compares with nothing). *)
Definition nonnegative (r : jnp.f32) : Prop :=
  SFltb r jnp.zero = false
  /\ (jnp.is_nan r = false -> SFleb jnp.zero r = true).

(** The dictionary the loop logs for the index [i] before the metrics are
  added, whatever the time measured. *)
Definition is_base_row (i : Z) (row : gmap string PyValue) : Prop :=
  exists timelapse,
    row = <["iteration" := PyInt (1 + i * log_period)]>
          (<["loop" := PyInt (1 + i)]>
          (<["time" := PyFloat timelapse]> ∅)).

(** A row logged for the index [i] when the updates return metrics under
  the keys [keys]: those keys hold JAX scalars, the others are as in the
  base row. *)
Definition is_logged_row (keys : gset string) (i : Z)
    (row : gmap string PyValue) : Prop :=
  exists base,
    is_base_row i base
    /\ dom row = keys ∪ dom base
    /\ (forall key, key ∉ keys -> row !! key = base !! key)
    /\ (forall key, key ∈ keys -> exists x, row !! key = Some (JaxScalar x)).

(** The keys of the metrics the first update from a carry returns. *)
Definition metric_keys (carry : Carry) : gset string :=
  dom (snd (update_scan_fn carry tt)).

(** A row of the finished CSV file, for the index [i]: exactly the six
  columns of the header, with the loop and iteration numbers of [i]. *)
Definition is_csv_row (i : Z) (row : gmap string PyValue) : Prop :=
  dom row = list_to_set csv_header
  /\ row !! "loop" = Some (PyInt (1 + i))
  /\ row !! "iteration" = Some (PyInt (1 + i * log_period))
  /\ (exists t, row !! "time" = Some (PyFloat t))
  /\ (forall key, key ∈ qd_metrics -> exists x, row !! key = Some (JaxScalar x)).

(** The metrics the update step number [n] from [carry] returns, counting
  from 0. *)
Definition metrics_at (carry : Carry) (n : nat) : gmap string jnp.f32 :=
  snd (update_scan_fn (Nat.iter n update_step carry) tt).

(** Every update returns metrics under the same keys (as a scan over the
  update demands). *)
Definition update_keys (keys : gset string) : Prop :=
  forall repertoire emitter_state random_key,
    dom (snd (fst (map_elites_update repertoire emitter_state random_key)))
    = keys.

(** The loop's own entries of the logged dictionary for the index [i]. *)
Definition base_row (i : Z) (timelapse : f64) : gmap string PyValue :=
  <["iteration" := PyInt (1 + i * log_period)]>
  (<["loop" := PyInt (1 + i)]>
  (<["time" := PyFloat timelapse]> ∅)).

(** The time measured around the scan of the interval [i], when the clock
  had been read [clock] times before the loop. *)
Definition timelapse_at (clock i : nat) : f64 :=
  SFsub 53 1024 (time_time (S (clock + 2 * i))) (time_time (clock + 2 * i)).

(** The state the training cell starts its loop from. *)
Definition training_start (repertoire : Repertoire)
    (emitter_state : EmitterState) (random_key : RNGKey) (clock : nat)
    : Training :=
  {| repertoire := repertoire;
     emitter_state := emitter_state;
     random_key := random_key;
     all_metrics := ∅;
     csv_file := snd csv_logger;
     clock := clock |}.

(** ** Floats and arrays *)

Lemma maximum_zero_not_below (x : jnp.f32) :
  SFltb (jnp.maximum jnp.zero x) jnp.zero = false.
Proof. destruct x as [[]|[]| |[] m e]; reflexivity. Qed.

Lemma maximum_zero_nonnegative (x : jnp.f32) :
  nonnegative (jnp.maximum jnp.zero x).
Proof.
  split; [apply maximum_zero_not_below|].
  destruct x as [[]|[]| |[] m e]; intros H; try reflexivity; discriminate H.
Qed.

Lemma entries_map (g : jnp.f32 -> jnp.f32) (a : Array) :
  jnp.entries (jnp.map g a) = List.map g (jnp.entries a).
Proof. destruct a; reflexivity. Qed.

Lemma mul_zeros_nan (n : nat) :
  jnp.mul (jnp.zeros n) jnp.nan = jnp.Vector (repeat jnp.nan n).
Proof.
  unfold jnp.mul, jnp.zeros. simpl. f_equal.
  induction n as [|n IH]; simpl; [reflexivity|]. by rewrite IH.
Qed.

Lemma shape_zeros_nan (n : nat) :
  jnp.shape (jnp.mul (jnp.zeros n) jnp.nan) = [n].
Proof. rewrite mul_zeros_nan. simpl. by rewrite repeat_length. Qed.

(** ** The environment of the notebook *)

Lemma step_env (f : Fields) (s : EnvState Sim) (a : Array) :
  step (env f) s a =
  let inner := brax_step (Fields.env_name f) (Fields.episode_length f) s a in
  EnvState.replace_reward inner
    (jnp.map (jnp.maximum jnp.zero)
       (jnp.add (EnvState.reward inner) (reward_offset (Fields.env_name f)))).
Proof. reflexivity. Qed.

(** Reward wrappers touch the reward only. *)
Lemma step_keeps_rest (e : Env) (s : EnvState Sim) (a : Array) :
  EnvState.obs (step e s a) = EnvState.obs (step (unwrapped e) s a)
  /\ EnvState.done (step e s a) = EnvState.done (step (unwrapped e) s a)
  /\ EnvState.info (step e s a) = EnvState.info (step (unwrapped e) s a)
  /\ EnvState.pipeline_state (step e s a)
     = EnvState.pipeline_state (step (unwrapped e) s a).
Proof. induction e as [n l|e IH o|e IH lo hi]; simpl; auto. Qed.

Lemma well_shaped_step (e : Env) (n : EnvName) (l : Z) (s : EnvState Sim) (a : Array) :
  unwrapped e = Create n l ->
  well_shaped n (brax_step n l s a) ->
  well_shaped n (step e s a).
Proof.
  intros He Hw. destruct (step_keeps_rest e s a) as (Ho & _ & Hi & _).
  rewrite He in Ho, Hi. simpl in Ho, Hi.
  unfold well_shaped. rewrite Ho, Hi. exact Hw.
Qed.

(** [play_step_fn] returns exactly when the three keys it reads exist, and
  then returns the tuple built from them. *)
Lemma play_step_fn_Some (f : Fields) (s : EnvState Sim) (p : Params) (k : RNGKey) r :
  play_step_fn f s p k = Some r <->
  exists state_desc truncation next_state_desc,
    let actions := apply (policy_network f) p (EnvState.obs s) in
    let next_state := step (env f) s actions in
    EnvState.info s !! "state_descriptor" = Some state_desc
    /\ EnvState.info next_state !! "truncation" = Some truncation
    /\ EnvState.info next_state !! "state_descriptor" = Some next_state_desc
    /\ r = (next_state, p, k,
            DCRLTransition.mk (EnvState.obs s) (EnvState.obs next_state)
              (EnvState.reward next_state) (EnvState.done next_state)
              truncation actions state_desc next_state_desc
              (jnp.mul (jnp.zeros (behavior_descriptor_length (env f))) jnp.nan)
              (jnp.mul (jnp.zeros (behavior_descriptor_length (env f))) jnp.nan)).
Proof.
  unfold play_step_fn. cbv zeta.
  set (a := apply (policy_network f) p (EnvState.obs s)).
  set (ns := step (env f) s a). clearbody ns a.
  set (d := jnp.mul _ _). clearbody d.
  destruct (EnvState.info s !! "state_descriptor") as [sd|]; simpl.
  2:{ split; [discriminate|]. intros (? & ? & ? & H & _). discriminate H. }
  destruct (EnvState.info ns !! "truncation") as [tr|]; simpl.
  2:{ split; [discriminate|]. intros (? & ? & ? & _ & H & _). discriminate H. }
  destruct (EnvState.info ns !! "state_descriptor") as [nsd|]; simpl.
  2:{ split; [discriminate|]. intros (? & ? & ? & _ & _ & H & _). discriminate H. }
  split.
  - intros [= <-]. by exists sd, tr, nsd.
  - intros (? & ? & ? & [= <-] & [= <-] & [= <-] & ->). reflexivity.
Qed.

Lemma env_unwrapped (f : Fields) :
  unwrapped (env f) = Create (Fields.env_name f) (Fields.episode_length f).
Proof. reflexivity. Qed.

Lemma last_policy_layer (f : Fields) :
  last (layer_sizes (policy_network f)) = Some (Z.of_nat (action_size (env f))).
Proof. unfold policy_network, policy_layer_sizes. simpl. apply last_snoc. Qed.

(** What a returned tuple consists of. *)
Lemma play_step_fn_fields (f : Fields) (env_state : EnvState Sim)
    (policy_params : Params) (random_key : RNGKey) state params key t :
  play_step_fn f env_state policy_params random_key = Some (state, params, key, t) ->
  let actions := apply (policy_network f) policy_params (EnvState.obs env_state) in
  let next_state := step (env f) env_state actions in
  state = next_state /\ params = policy_params /\ key = random_key
  /\ exists state_desc truncation next_state_desc,
      EnvState.info env_state !! "state_descriptor" = Some state_desc
      /\ EnvState.info next_state !! "truncation" = Some truncation
      /\ EnvState.info next_state !! "state_descriptor" = Some next_state_desc
      /\ t = DCRLTransition.mk (EnvState.obs env_state) (EnvState.obs next_state)
               (EnvState.reward next_state) (EnvState.done next_state)
               truncation actions state_desc next_state_desc
               (jnp.mul (jnp.zeros (behavior_descriptor_length (env f))) jnp.nan)
               (jnp.mul (jnp.zeros (behavior_descriptor_length (env f))) jnp.nan).
Proof.
  intros Hr actions next_state.
  apply play_step_fn_Some in Hr as (sd & tr & nsd & H1 & H2 & H3 & Hr).
  fold actions next_state in H2, H3, Hr.
  pose proof (f_equal snd Hr) as Ht.
  pose proof (f_equal (fun r => snd (fst r)) Hr) as Hk.
  pose proof (f_equal (fun r => snd (fst (fst r))) Hr) as Hp.
  pose proof (f_equal (fun r => fst (fst (fst r))) Hr) as Hs.
  cbn [fst snd] in Ht, Hk, Hp, Hs.
  repeat split; try assumption. exists sd, tr, nsd. auto.
Qed.

(** ** The claims about [play_step_fn] *)


(** C3. From a well-shaped state, over a simulator that keeps shapes and
  a network whose output has the size of its last layer, [play_step_fn]
  returns a transition whose [obs] and [next_obs] have the environment's
  observation size, whose [actions] have its action size and whose
  [state_desc], [next_state_desc], [desc] and [desc_prime] have its
  behavior descriptor length. *)
Theorem play_step_fn_shapes (f : Fields) (env_state : EnvState Sim)
    (policy_params : Params) (random_key : RNGKey) :
  simulator_keeps_shapes ->
  network_output_shape ->
  well_shaped (Fields.env_name f) env_state ->
  exists next_state t,
    play_step_fn f env_state policy_params random_key
    = Some (next_state, policy_params, random_key, t)
    /\ jnp.shape (DCRLTransition.obs t) = [observation_size (env f)]
    /\ jnp.shape (DCRLTransition.next_obs t) = [observation_size (env f)]
    /\ jnp.shape (DCRLTransition.actions t) = [action_size (env f)]
    /\ jnp.shape (DCRLTransition.state_desc t) = [behavior_descriptor_length (env f)]
    /\ jnp.shape (DCRLTransition.next_state_desc t)
       = [behavior_descriptor_length (env f)]
    /\ jnp.shape (DCRLTransition.desc t) = [behavior_descriptor_length (env f)]
    /\ jnp.shape (DCRLTransition.desc_prime t)
       = [behavior_descriptor_length (env f)].
Proof.
  intros Hsim Hnet Hs.
  set (actions := apply (policy_network f) policy_params (EnvState.obs env_state)).
  assert (Ha : jnp.shape actions = [action_size (env f)]).
  { unfold actions. destruct Hs as (Ho & _).
    rewrite (Hnet _ _ _ _ _ Ho (last_policy_layer f)). by rewrite Nat2Z.id. }
  assert (Hn : well_shaped (Fields.env_name f) (step (env f) env_state actions)).
  { apply (well_shaped_step _ _ _ _ _ (env_unwrapped f)). apply Hsim; assumption. }
  destruct Hs as (Ho & (sd & Hsd & Hsd') & _).
  destruct Hn as (Hno & (nsd & Hnsd & Hnsd') & [tr Htr]).
  eexists _, _. split.
  - apply play_step_fn_Some. exists sd, tr, nsd. cbv zeta. fold actions. eauto.
  - transition_fields. rewrite !shape_zeros_nan. repeat split; assumption.
Qed.


(** C9. [play_step_fn] hands back the policy parameters and the random
  key it was given: whatever it returns carries them unchanged, and it
  returns whenever the keys it reads are there. *)
Theorem play_step_fn_passes_params_and_key (f : Fields) (env_state : EnvState Sim)
    (policy_params : Params) (random_key : RNGKey) :
  (forall state params key t,
     play_step_fn f env_state policy_params random_key
     = Some (state, params, key, t) ->
     params = policy_params /\ key = random_key)
  /\ (let next_state :=
        step (env f) env_state
          (apply (policy_network f) policy_params (EnvState.obs env_state)) in
      is_Some (EnvState.info env_state !! "state_descriptor") ->
      is_Some (EnvState.info next_state !! "truncation") ->
      is_Some (EnvState.info next_state !! "state_descriptor") ->
      exists t,
        play_step_fn f env_state policy_params random_key
        = Some (next_state, policy_params, random_key, t)).
Proof.
  split.
  - intros state params key t Hr.
    by apply play_step_fn_fields in Hr as (_ & -> & -> & _).
  - intros next_state [sd H1] [tr H2] [nsd H3].
    eexists. apply play_step_fn_Some. exists sd, tr, nsd. eauto.
Qed.

(** C10. In every transition [play_step_fn] builds, [desc] and
  [desc_prime] are [jnp.zeros(env.behavior_descriptor_length) * jnp.nan]:
  vectors of the behavior descriptor length whose every entry is NaN. *)
Theorem play_step_fn_descriptor_placeholders (f : Fields) (env_state : EnvState Sim)
    (policy_params : Params) (random_key : RNGKey) state params key t :
  play_step_fn f env_state policy_params random_key = Some (state, params, key, t) ->
  let n := behavior_descriptor_length (env f) in
  DCRLTransition.desc t = jnp.mul (jnp.zeros n) jnp.nan
  /\ DCRLTransition.desc_prime t = jnp.mul (jnp.zeros n) jnp.nan
  /\ DCRLTransition.desc t = jnp.Vector (repeat jnp.nan n)
  /\ DCRLTransition.desc_prime t = jnp.Vector (repeat jnp.nan n)
  /\ length (jnp.entries (DCRLTransition.desc t)) = n
  /\ length (jnp.entries (DCRLTransition.desc_prime t)) = n
  /\ Forall (fun x => jnp.is_nan x = true) (jnp.entries (DCRLTransition.desc t))
  /\ Forall (fun x => jnp.is_nan x = true)
       (jnp.entries (DCRLTransition.desc_prime t)).
Proof.
  intros Hr n.
  apply play_step_fn_fields in Hr as (_ & _ & _ & sd & tr & nsd & _ & _ & _ & ->).
  transition_fields. fold n. rewrite mul_zeros_nan. cbn [jnp.entries].
  assert (Forall (fun x => jnp.is_nan x = true) (repeat jnp.nan n)).
  { apply List.Forall_forall. intros x Hx. apply repeat_spec in Hx. by subst. }
  repeat match goal with |- _ /\ _ => split end;
    try reflexivity; try assumption; apply repeat_length.
Qed.

(** ** The environment and the configuration *)

(** C6, as the code has it.  Two reward wrappers stand between the
  environment the factory returns and the environment used for stepping
  and scoring: the offset wrapper inside, the clip wrapper outside. *)
Theorem env_wrappers (f : Fields) :
  wrappers (env f) = [Clip; Offset]
  /\ length (wrappers (env f)) = 2
  /\ unwrapped (env f) = Create (Fields.env_name f) (Fields.episode_length f)
  /\ env f
     = ClipRewardWrapper
         (OffsetRewardWrapper
            (Create (Fields.env_name f) (Fields.episode_length f))
            (reward_offset (Fields.env_name f)))
         (Some jnp.zero) None.
Proof. repeat split. Qed.

(** ** Scans and the metrics loop *)

Lemma jax_lax_scan_S {C Y : Type} (f : C -> unit -> C * Y) (c : C) (n : nat) :
  jax_lax_scan f c (S n)
  = (fst (jax_lax_scan f (fst (f c tt)) n),
     snd (f c tt) :: snd (jax_lax_scan f (fst (f c tt)) n)).
Proof.
  simpl. destruct (f c tt) as [c' y]. simpl.
  by destruct (jax_lax_scan f c' n).
Qed.

Lemma jax_lax_scan_carry {C Y : Type} (f : C -> unit -> C * Y) (c : C) (n : nat) :
  fst (jax_lax_scan f c n) = Nat.iter n (fun c => fst (f c tt)) c.
Proof.
  revert c. induction n as [|n IH]; intros c; [reflexivity|].
  rewrite jax_lax_scan_S. cbn [fst]. rewrite IH.
  symmetry. exact (Nat.iter_succ_r n (fun c => fst (f c tt)) c).
Qed.

Lemma jax_lax_scan_length {C Y : Type} (f : C -> unit -> C * Y) (c : C) (n : nat) :
  length (snd (jax_lax_scan f c n)) = n.
Proof.
  revert c. induction n as [|n IH]; intros c; [reflexivity|].
  rewrite jax_lax_scan_S. cbn [snd length]. by rewrite IH.
Qed.

Lemma stack_lookup (y : gmap string jnp.f32) ys (key : string) :
  stack (y :: ys) !! key
  = (fun x => x :: omap (fun y => y !! key) ys) <$> y !! key.
Proof.
  unfold stack. rewrite map_lookup_imap.
  destruct (y !! key) as [x|] eqn:E; simpl; [|reflexivity].
  by rewrite E.
Qed.

Lemma stack_dom (y : gmap string jnp.f32) ys : dom (stack (y :: ys)) = dom y.
Proof.
  apply set_eq. intros key. rewrite !elem_of_dom, stack_lookup.
  by rewrite fmap_is_Some.
Qed.

Lemma stack_nonempty ys (key : string) value :
  stack ys !! key = Some value -> value <> [].
Proof.
  destruct ys as [|y ys]; [unfold stack; by rewrite lookup_empty|].
  rewrite stack_lookup. destruct (y !! key); simpl; [|discriminate].
  by intros [= <-].
Qed.

(** The loop over [metrics.items()] completes when no value is empty; it
  adds a JAX scalar under every key of the metrics and leaves the other
  keys of the logged dictionary alone. *)
Lemma record_metrics (metrics : gmap string (list jnp.f32))
    (logged : gmap string PyValue) (every : gmap string (list jnp.f32)) :
  (forall key value, metrics !! key = Some value -> value <> []) ->
  exists logged' every',
    map_fold record_metric (Some (logged, every)) metrics = Some (logged', every')
    /\ dom logged' = dom metrics ∪ dom logged
    /\ (forall key, key ∉ dom metrics -> logged' !! key = logged !! key)
    /\ (forall key, key ∈ dom metrics -> exists x, logged' !! key = Some (JaxScalar x)).
Proof.
  apply (map_fold_weak_ind
    (fun r (m : gmap string (list jnp.f32)) =>
       (forall key value, m !! key = Some value -> value <> []) ->
       exists logged' every',
         r = Some (logged', every')
         /\ dom logged' = dom m ∪ dom logged
         /\ (forall key, key ∉ dom m -> logged' !! key = logged !! key)
         /\ (forall key, key ∈ dom m -> exists x, logged' !! key = Some (JaxScalar x)))).
  - intros _. exists logged, every. repeat split.
    + rewrite dom_empty_L. set_solver.
    + intros key Hk. rewrite dom_empty_L in Hk. set_solver.
  - intros key value m r Hfresh IH Hne.
    destruct IH as (lg & ev & -> & Hdom & Hold & Hnew).
    { intros k v Hk. apply (Hne k v). rewrite lookup_insert_ne; [done|].
      intros ->. congruence. }
    assert (Hv : value <> []) by (apply (Hne key); apply lookup_insert_eq).
    unfold record_metric, last_entry. simpl.
    destruct (last value) as [x|] eqn:Hlast.
    2:{ apply last_None in Hlast. contradiction. }
    simpl. eexists _, _. split; [reflexivity|]. split; [|split].
    + rewrite !dom_insert_L, Hdom. set_solver.
    + intros k Hk. rewrite dom_insert_L in Hk.
      rewrite lookup_insert_ne by set_solver. apply Hold. set_solver.
    + intros k Hk. rewrite dom_insert_L in Hk.
      destruct (decide (key = k)) as [->|Hkk].
      * exists x. apply lookup_insert_eq.
      * rewrite lookup_insert_ne by done. apply Hnew. set_solver.
Qed.

(** ** The training loop *)

Lemma interval_carry (i : Z) (s s' : Training) :
  interval i s = Some s' ->
  carry_of s' = fst (jax_lax_scan update_scan_fn (carry_of s) (Z.to_nat log_period)).
Proof.
  unfold interval.
  destruct (jax_lax_scan update_scan_fn (carry_of s) (Z.to_nat log_period))
    as [[[r e] k] ys].
  cbv zeta. destruct (map_fold record_metric _ _) as [[lg ev]|]; simpl; [|discriminate].
  by intros [= <-].
Qed.

(** One interval completes, runs [log_period] updates on the carry and
  adds one row to the CSV file. *)
Lemma interval_spec (i : Z) (s : Training) :
  exists s' row,
    interval i s = Some s'
    /\ carry_of s' = Nat.iter (Z.to_nat log_period) update_step (carry_of s)
    /\ CSVLogger.header_row (csv_file s') = CSVLogger.header_row (csv_file s)
    /\ CSVLogger.rows (csv_file s') = CSVLogger.rows (csv_file s) ++ [row]
    /\ is_logged_row (metric_keys (carry_of s)) i row.
Proof.
  unfold interval.
  pose proof (jax_lax_scan_carry update_scan_fn (carry_of s) (Z.to_nat log_period)) as Hc.
  assert (Hys : exists ys,
    snd (jax_lax_scan update_scan_fn (carry_of s) (Z.to_nat log_period))
    = snd (update_scan_fn (carry_of s) tt) :: ys).
  { change (Z.to_nat log_period) with 10%nat. rewrite jax_lax_scan_S. cbn [snd]. eauto. }
  destruct (jax_lax_scan update_scan_fn (carry_of s) (Z.to_nat log_period))
    as [[[r e] k] ys].
  cbn [fst snd] in Hc, Hys. destruct Hys as [ys' ->]. cbv zeta.
  set (base := <["iteration" := _]> _).
  destruct (record_metrics (stack (snd (update_scan_fn (carry_of s) tt) :: ys'))
              base (all_metrics s)) as (lg & ev & Hfold & Hdom & Hold & Hnew).
  { intros key value. apply stack_nonempty. }
  rewrite Hfold. simpl. eexists _, lg. split; [reflexivity|].
  rewrite stack_dom in Hdom, Hold, Hnew.
  split; [exact Hc|]. split; [reflexivity|]. split; [reflexivity|].
  exists base. split; [|auto]. eexists. reflexivity.
Qed.

(** A run of the loop over [n] indices from [a] on. *)
Lemma for_each_intervals (n : nat) (a : Z) (s : Training) :
  exists s' new,
    for_each (seqZ a (Z.of_nat n)) interval s = Some s'
    /\ carry_of s' = Nat.iter (n * Z.to_nat log_period) update_step (carry_of s)
    /\ CSVLogger.header_row (csv_file s') = CSVLogger.header_row (csv_file s)
    /\ CSVLogger.rows (csv_file s') = CSVLogger.rows (csv_file s) ++ new
    /\ length new = n
    /\ forall (j : nat) row,
         new !! j = Some row ->
         exists carry, is_logged_row (metric_keys carry) (a + Z.of_nat j) row.
Proof.
  revert a s. induction n as [|n IH]; intros a s.
  - exists s, []. simpl. rewrite app_nil_r. repeat split. intros j row Hj.
    by rewrite lookup_nil in Hj.
  - rewrite seqZ_cons by lia.
    replace (Z.pred (Z.of_nat (S n))) with (Z.of_nat n) by lia.
    destruct (interval_spec a s) as (s1 & row & Hs1 & Hc1 & Hh1 & Hr1 & Hrow).
    destruct (IH (Z.succ a) s1) as (s' & new & Hs' & Hc & Hh & Hr & Hlen & Hnew).
    exists s', (row :: new). cbn [for_each]. rewrite Hs1.
    cbn [mbind option_bind].
    split; [exact Hs'|]. split; [|split; [|split; [|split]]].
    + rewrite Hc, Hc1, <- Nat.iter_add. f_equal. lia.
    + congruence.
    + rewrite Hr, Hr1, <- app_assoc. reflexivity.
    + simpl. by rewrite Hlen.
    + intros [|j] r Hj; simpl in Hj.
      * injection Hj as <-. exists (carry_of s). by rewrite Z.add_0_r.
      * destruct (Hnew j r Hj) as [c Hc']. exists c.
        by replace (a + Z.of_nat (S j))%Z with (Z.succ a + Z.of_nat j)%Z by lia.
Qed.

Lemma range_to_nat (n : Z) : range n = seqZ 0 (Z.of_nat (Z.to_nat n)).
Proof. unfold range, seqZ. by rewrite Nat2Z.id. Qed.

Lemma not_a_qd_metric (key : string) :
  key = "loop" \/ key = "iteration" \/ key = "time" -> key ∉ qd_metrics.
Proof.
  unfold qd_metrics. rewrite !elem_of_union, !elem_of_singleton.
  intros [->| [->| ->]] [[H|H]|H]; discriminate H.
Qed.

(** Under the metrics of [default_qd_metrics], a logged row is a row of
  the six columns. *)
Lemma logged_row_is_csv_row (i : Z) (row : gmap string PyValue) :
  is_logged_row qd_metrics i row -> is_csv_row i row.
Proof.
  intros (base & [t ->] & Hdom & Hold & Hnew). unfold is_csv_row.
  split; [|split; [|split; [|split]]].
  - rewrite Hdom, !dom_insert_L, dom_empty_L. unfold qd_metrics, csv_header.
    cbn [list_to_set foldr]. set_solver.
  - rewrite Hold by (apply not_a_qd_metric; auto).
    rewrite lookup_insert_ne by done. apply lookup_insert_eq.
  - rewrite Hold by (apply not_a_qd_metric; auto). apply lookup_insert_eq.
  - exists t. rewrite Hold by (apply not_a_qd_metric; auto).
    rewrite !lookup_insert_ne by done. apply lookup_insert_eq.
  - exact Hnew.
Qed.

(** What the training cell does, for any update function. *)
Lemma training_spec (f : Fields) (r : Repertoire) (e : EmitterState)
    (k : RNGKey) (c : nat) :
  exists final,
    training f r e k c = Some final
    /\ carry_of final
       = Nat.iter (Z.to_nat (num_loops f) * Z.to_nat log_period) update_step (r, e, k)
    /\ CSVLogger.header_row (csv_file final) = csv_header
    /\ length (CSVLogger.rows (csv_file final)) = Z.to_nat (num_loops f)
    /\ forall (i : nat) row,
         CSVLogger.rows (csv_file final) !! i = Some row ->
         exists carry, is_logged_row (metric_keys carry) (Z.of_nat i) row.
Proof.
  unfold training. rewrite range_to_nat.
  destruct (for_each_intervals (Z.to_nat (num_loops f)) 0
    {| repertoire := r; emitter_state := e; random_key := k; all_metrics := ∅;
       csv_file := snd csv_logger; clock := c |})
    as (final & new & Hrun & Hc & Hh & Hr & Hlen & Hnew).
  exists final. split; [exact Hrun|]. split; [exact Hc|]. split; [exact Hh|].
  simpl in Hr. rewrite Hr. split; [exact Hlen|].
  intros i row Hi. destruct (Hnew i row Hi) as [carry Hrow].
  exists carry. by rewrite Z.add_0_l in Hrow.
Qed.


(** C7. Each of the eighteen parameters of the cell reaches the
  configuration object unchanged, under the field of its own name. *)
Theorem dcrl_emitter_config_fields (f : Fields) :
  let config := dcrl_emitter_config f in
  DCRLMEConfig.ga_batch_size config = Fields.ga_batch_size f
  /\ DCRLMEConfig.dcrl_batch_size config = Fields.dcrl_batch_size f
  /\ DCRLMEConfig.ai_batch_size config = Fields.ai_batch_size f
  /\ DCRLMEConfig.lengthscale config = Fields.lengthscale f
  /\ DCRLMEConfig.critic_hidden_layer_size config = Fields.critic_hidden_layer_size f
  /\ DCRLMEConfig.num_critic_training_steps config
     = Fields.num_critic_training_steps f
  /\ DCRLMEConfig.num_pg_training_steps config = Fields.num_pg_training_steps f
  /\ DCRLMEConfig.batch_size config = Fields.batch_size f
  /\ DCRLMEConfig.replay_buffer_size config = Fields.replay_buffer_size f
  /\ DCRLMEConfig.discount config = Fields.discount f
  /\ DCRLMEConfig.reward_scaling config = Fields.reward_scaling f
  /\ DCRLMEConfig.critic_learning_rate config = Fields.critic_learning_rate f
  /\ DCRLMEConfig.actor_learning_rate config = Fields.actor_learning_rate f
  /\ DCRLMEConfig.policy_learning_rate config = Fields.policy_learning_rate f
  /\ DCRLMEConfig.noise_clip config = Fields.noise_clip f
  /\ DCRLMEConfig.policy_noise config = Fields.policy_noise f
  /\ DCRLMEConfig.soft_tau_update config = Fields.soft_tau_update f
  /\ DCRLMEConfig.policy_delay config = Fields.policy_delay f.
Proof. intros config. unfold config, dcrl_emitter_config. repeat split. Qed.

End Notebook.

Arguments step {Sim}.
Arguments play_step_fn {Sim Params RNGKey}.
Arguments well_shaped {Sim}.
Arguments simulator_keeps_shapes {Sim}.
Arguments network_output_shape {Params}.
Arguments update_scan_fn {RNGKey Repertoire EmitterState}.
Arguments update_step {RNGKey Repertoire EmitterState}.
Arguments update_returns_qd_metrics {RNGKey Repertoire EmitterState}.
Arguments repertoire {RNGKey Repertoire EmitterState}.
Arguments csv_file {RNGKey Repertoire EmitterState}.
Arguments carry_of {RNGKey Repertoire EmitterState}.
Arguments interval {RNGKey Repertoire EmitterState}.
Arguments training {RNGKey Repertoire EmitterState}.

(** ** Counting the update steps *)

Section Counting.

Variables R E K : Type.
Variable update : R -> E -> K -> R * E * gmap string jnp.f32 * K.
Variable time_time : nat -> f64.

(** Each update step on the carry is one call of the update function. *)
Lemma counting_update_step (carry : (R * nat) * E * K) :
  snd (fst (fst (update_step (counting update) carry)))
  = S (snd (fst (fst carry))).
Proof.
  destruct carry as [[[r n] e] k]. unfold update_step, update_scan_fn, jax_jit.
  cbn [counting fst snd]. by destruct (update r e k) as [[[r' e'] m] k'].
Qed.

Lemma counting_iter (n : nat) (carry : (R * nat) * E * K) :
  snd (fst (fst (Nat.iter n (update_step (counting update)) carry)))
  = (snd (fst (fst carry)) + n)%nat.
Proof.
  induction n as [|n IH]; cbn [Nat.iter nat_rect]; [lia|].
  rewrite counting_update_step. unfold Nat.iter in IH. rewrite IH. lia.
Qed.


End Counting.

(** ** The bootstrap cell *)

Section BootstrapCell.

Variable World : Type.
Variable importable : World -> string -> bool.
Variable run : string -> World -> World.

Local Abbreviation bootstrap := (Bootstrap.bootstrap World importable run).

(** C4. The bootstrap tries to import qdax.  When the import succeeds
  nothing else happens: no command is run.  Exactly when it raises, the
  handler prints, runs the pip command that installs qdax and imports
  again (raising if that import fails too).  The [try] of the first cell
  is the only exception handler of the notebook; the shell escapes outside
  it (ipympl, the matplotlib magic) do not install qdax. *)
Theorem bootstrap_installs_exactly_when_import_raises (w : World)
    (trace : list Bootstrap.event) :
  let w' := run Bootstrap.pip_install_qdax w in
  (importable w "qdax" = true ->
     bootstrap (w, trace) = (w, trace ++ [Bootstrap.Imported "qdax"], Some tt))
  /\ (importable w "qdax" = false ->
        bootstrap (w, trace)
        = (w',
           trace ++ [Bootstrap.ImportFailed "qdax";
                     Bootstrap.Printed "QDax not found. Installing...";
                     Bootstrap.Ran Bootstrap.pip_install_qdax;
                     if importable w' "qdax"
                     then Bootstrap.Imported "qdax"
                     else Bootstrap.ImportFailed "qdax"],
           if importable w' "qdax" then Some tt else None))
  /\ (In (Bootstrap.Ran Bootstrap.pip_install_qdax)
        (Bootstrap.trace_of (bootstrap (w, [])))
      <-> importable w "qdax" = false)
  /\ (forall command,
        In (Bootstrap.Ran command) (Bootstrap.trace_of (bootstrap (w, []))) ->
        importable w "qdax" = false /\ command = Bootstrap.pip_install_qdax)
  /\ flat_map Source.handlers Source.notebook
     = [[Source.Run ["print"];
         Source.Escape Bootstrap.pip_install_qdax;
         Source.Import "qdax"]]
  /\ flat_map Source.unguarded_escapes Source.notebook
     = ["pip install ipympl |tail -n 1"; "matplotlib inline"].
Proof.
  intros w'.
  assert (Hok : forall tr, importable w "qdax" = true ->
    bootstrap (w, tr) = (w, tr ++ [Bootstrap.Imported "qdax"], Some tt)).
  { intros tr H. unfold Bootstrap.bootstrap, Bootstrap.try_except, Bootstrap.import.
    by rewrite H. }
  assert (Hfail : forall tr, importable w "qdax" = false ->
    bootstrap (w, tr)
    = (w',
       tr ++ [Bootstrap.ImportFailed "qdax";
              Bootstrap.Printed "QDax not found. Installing...";
              Bootstrap.Ran Bootstrap.pip_install_qdax;
              if importable w' "qdax"
              then Bootstrap.Imported "qdax"
              else Bootstrap.ImportFailed "qdax"],
       if importable w' "qdax" then Some tt else None)).
  { intros tr H.
    unfold Bootstrap.bootstrap, Bootstrap.try_except, Bootstrap.seq, Bootstrap.bind,
      Bootstrap.import, Bootstrap.print, Bootstrap.escape.
    rewrite H. fold w'. destruct (importable w' "qdax"); by rewrite <- !app_assoc. }
  split; [apply Hok|]. split; [apply Hfail|]. split; [|split; [|split; reflexivity]].
  - destruct (importable w "qdax") eqn:H.
    + rewrite (Hok [] eq_refl). cbn. split; [|discriminate].
      intros [H'|[]]. discriminate H'.
    + rewrite (Hfail [] eq_refl). cbn. split; [reflexivity|]. intros _. auto.
  - intros command. destruct (importable w "qdax") eqn:H.
    + rewrite (Hok [] eq_refl). cbn. intros [H'|[]]. discriminate H'.
    + rewrite (Hfail [] eq_refl). cbn.
      intros [H'|[H'|[H'|[H'|[]]]]]; try discriminate H'.
      * injection H' as <-. auto.
      * destruct (importable w' "qdax"); discriminate H'.
Qed.

End BootstrapCell.

(** ** The statements on the concrete setting *)

Example demo_play_step :
  play_step_fn Demo.action_size Demo.behavior_descriptor_length
    (Demo.step Demo.minus_one) Demo.reward_offset Demo.apply
    notebook_fields (Demo.state jnp.zero) tt tt
  = Some (Demo.next_state, tt, tt, Demo.transition).
Proof. vm_compute. reflexivity. Qed.

(** A reward of -5 is offset to -2 and clipped to 0; a NaN reward stays
  NaN. *)
Example demo_clip_negative :
  EnvState.reward
    (step (Demo.step (S754_finite true 10485760 (-21)))
       (env Demo.reward_offset notebook_fields) (Demo.state jnp.zero)
       (jnp.Vector [jnp.zero; jnp.zero]))
  = jnp.Scalar jnp.zero.
Proof. vm_compute. reflexivity. Qed.

Example demo_clip_nan :
  EnvState.reward
    (step (Demo.step jnp.nan)
       (env Demo.reward_offset notebook_fields) (Demo.state jnp.zero)
       (jnp.Vector [jnp.zero; jnp.zero]))
  = jnp.Scalar jnp.nan.
Proof. vm_compute. reflexivity. Qed.

Example demo_bootstrap_present :
  Bootstrap.cell_install bool Demo.importable Demo.run (true, [])
  = (true,
     [Bootstrap.Imported "IPython.display"; Bootstrap.Imported "qdax";
      Bootstrap.OutputCleared],
     Some tt).
Proof. vm_compute. reflexivity. Qed.

Example demo_bootstrap_missing :
  Bootstrap.cell_install bool Demo.importable Demo.run (false, [])
  = (true,
     [Bootstrap.Imported "IPython.display"; Bootstrap.ImportFailed "qdax";
      Bootstrap.Printed "QDax not found. Installing...";
      Bootstrap.Ran "pip install qdax[cuda12]"; Bootstrap.Imported "qdax";
      Bootstrap.OutputCleared],
     Some tt).
Proof. vm_compute. reflexivity. Qed.

Example notebook_num_loops : num_loops notebook_fields = 100%Z.
Proof. reflexivity. Qed.

Example notebook_instantiations :
  Source.instantiations Source.notebook
  = ["OffsetRewardWrapper"; "ClipRewardWrapper"; "MLP"; "MLPDC";
     "DCRLTransition"; "DCRLMEConfig"; "DCRLMEEmitter"; "MAPElites";
     "CSVLogger"].
Proof. vm_compute. reflexivity. Qed.

Lemma demo_simulator_keeps_shapes (reward : jnp.f32) :
  simulator_keeps_shapes Demo.observation_size Demo.action_size
    Demo.behavior_descriptor_length (Demo.step reward).
Proof.
  intros n l s a _ _. split; [reflexivity|]. split.
  - exists (jnp.Vector (repeat jnp.zero 2)). split; reflexivity.
  - exists (jnp.Scalar jnp.zero). reflexivity.
Defined.

Lemma demo_network_output_shape : network_output_shape Demo.apply.
Proof.
  intros network params x m n _ Hn. unfold Demo.apply. rewrite Hn.
  simpl. by rewrite repeat_length.
Defined.

Lemma demo_well_shaped (reward : jnp.f32) :
  well_shaped Demo.observation_size Demo.behavior_descriptor_length
    ant_omni (Demo.state reward).
Proof.
  split; [reflexivity|]. split.
  - exists (jnp.Vector (repeat jnp.zero 2)). split; reflexivity.
  - exists (jnp.Scalar jnp.zero). reflexivity.
Defined.

Lemma demo_update_returns_qd_metrics : update_returns_qd_metrics Demo.update.
Proof.
  intros r e k. cbn [Demo.update fst snd]. unfold Demo.metrics, qd_metrics.
  rewrite !dom_insert_L, dom_empty_L. set_solver.
Defined.

(** C3 on the concrete setting: the shapes are 3, 3, 2, 2, 2, 2 and 2. *)
Lemma play_step_fn_shapes_witness :
  exists next_state t,
    play_step_fn Demo.action_size Demo.behavior_descriptor_length
      (Demo.step Demo.minus_one) Demo.reward_offset Demo.apply
      notebook_fields (Demo.state jnp.zero) tt tt
    = Some (next_state, tt, tt, t)
    /\ jnp.shape (DCRLTransition.obs t) = [3%nat]
    /\ jnp.shape (DCRLTransition.next_obs t) = [3%nat]
    /\ jnp.shape (DCRLTransition.actions t) = [2%nat]
    /\ jnp.shape (DCRLTransition.state_desc t) = [2%nat]
    /\ jnp.shape (DCRLTransition.next_state_desc t) = [2%nat]
    /\ jnp.shape (DCRLTransition.desc t) = [2%nat]
    /\ jnp.shape (DCRLTransition.desc_prime t) = [2%nat].
Proof.
  exact (play_step_fn_shapes unit unit unit
           Demo.observation_size Demo.action_size Demo.behavior_descriptor_length
           (Demo.step Demo.minus_one) Demo.reward_offset Demo.apply
           notebook_fields (Demo.state jnp.zero) tt tt
           (demo_simulator_keeps_shapes Demo.minus_one)
           demo_network_output_shape
           (demo_well_shaped jnp.zero)).
Defined.


(** C10 on the concrete setting: two NaN entries in each placeholder. *)
Lemma play_step_fn_descriptor_placeholders_witness :
  DCRLTransition.desc Demo.transition = jnp.Vector [jnp.nan; jnp.nan]
  /\ DCRLTransition.desc_prime Demo.transition = jnp.Vector [jnp.nan; jnp.nan]
  /\ Forall (fun x => jnp.is_nan x = true)
       (jnp.entries (DCRLTransition.desc Demo.transition))
  /\ Forall (fun x => jnp.is_nan x = true)
       (jnp.entries (DCRLTransition.desc_prime Demo.transition)).
Proof.
  destruct (play_step_fn_descriptor_placeholders unit unit unit
              Demo.action_size Demo.behavior_descriptor_length
              (Demo.step Demo.minus_one) Demo.reward_offset Demo.apply
              notebook_fields (Demo.state jnp.zero) tt tt
              Demo.next_state tt tt Demo.transition)
    as (_ & _ & H1 & H2 & _ & _ & H3 & H4).
  - vm_compute. reflexivity.
  - repeat split; assumption.
Defined.


(** C6 as stated fails: the notebook's environment is not under exactly
  one wrapper. *)
Lemma env_wrappers_not_one :
  length (wrappers (env Demo.reward_offset notebook_fields)) <> 1%nat.
Proof. simpl. discriminate. Qed.
